(** * pv-forecast: the PV energy model and the forecast aggregator of [app.py]

    A shallow embedding of [src/app.py]:
    - the pydantic models [PVSystem] and [ForecastRequest] with their field
      constraints;
    - [calculate_advanced_pv_energy], written with the whole-array numpy
      operations the source uses (scalar/array and array/array arithmetic with
      numpy's broadcasting rule for one-dimensional arrays);
    - the two endpoints [geocode_address] and [get_pv_forecast], with the
      geocoder and the weather client as explicit collaborators.

    Numbers.  The program is written once, over an abstract number type
    ([Number]), and run at two instances: IEEE binary64 (Rocq's primitive
    floats, the arithmetic of Python's [float] and numpy's [float64]) and
    exact rationals kept in lowest terms.  Statements are proved for every
    instance wherever they hold there.  An identity that holds only without
    rounding error is proved for the exact instance, next to what remains of
    it in every instance, and a binary64 run shows the difference.  NaN and
    infinities exist in binary64 only: [num_is_nan] is constantly false on
    the rationals. *)

From Stdlib Require Import String Ascii List Bool Arith PeanoNat NArith ZArith Lia.
From Stdlib Require Import QArith Qround Qreduction Field Lqa.
From Stdlib Require Import Floats.PrimFloat Numbers.Cyclic.Int63.Uint63.
Import ListNotations.

Set Implicit Arguments.
Local Open Scope nat_scope.

(** ** Python exceptions and results *)

(** The exceptions the body of the forecast loop can meet.  [ValueError] is
    what numpy raises when two shapes cannot be broadcast together,
    [ZeroDivisionError] what Python raises on [x / 0.0] for two floats, and
    [CollaboratorError] stands for any exception coming out of the weather
    client (network faults, malformed answers).  The loop only logs them. *)
Inductive exn : Type :=
| ValueError
| ZeroDivisionError
| CollaboratorError.

Inductive result (A : Type) : Type :=
| Ok (a : A)
| Raise (e : exn).

Arguments Ok {A} a.
Arguments Raise {A} e.

Definition bind {A B : Type} (r : result A) (k : A -> result B) : result B :=
  match r with
  | Ok a => k a
  | Raise e => Raise e
  end.


Declare Scope result_scope.
Delimit Scope result_scope with result.
Notation "x <- r ;; k" := (bind r (fun x => k))
  (at level 61, r at next level, right associativity) : result_scope.
Notation "' pat <- r ;; k" := (bind r (fun x => match x with pat => k end))
  (at level 61, pat pattern, r at next level, right associativity) : result_scope.

(** ** Python strings *)

(** A [str] is a sequence of Unicode code points; [len] counts them. *)
Definition str : Type := list N.

Definition str_of (s : string) : str :=
  map N_of_ascii (list_ascii_of_string s).

(** [str.isspace] on one code point: the Unicode white space characters. *)
Definition is_space (c : N) : bool :=
  ((9 <=? c) && (c <=? 13) || (28 <=? c) && (c <=? 32)
   || (c =? 133) || (c =? 160) || (c =? 5760)
   || (8192 <=? c) && (c <=? 8202)
   || (c =? 8232) || (c =? 8233) || (c =? 8239) || (c =? 8287)
   || (c =? 12288))%N.

Fixpoint lstrip (s : str) : str :=
  match s with
  | [] => []
  | c :: s' => if is_space c then lstrip s' else s
  end.

Definition rstrip (s : str) : str := rev (lstrip (rev s)).

(** [s.strip()] *)
Definition strip (s : str) : str := rstrip (lstrip s).

(** What a call of the geocoder comes to: a value, [None], or an exception
    [e], of which the program reads [str(e)] only. *)
Inductive geocoded (A : Type) : Type :=
| Found (a : A)
| NotFound
| GeocoderError (message : str).

Arguments Found {A} a.
Arguments NotFound {A}.
Arguments GeocoderError {A} message.

(** An endpoint answers with a JSON body (status 200) or, when an
    [HTTPException] leaves it, with a status code and a detail message. *)
Inductive http (A : Type) : Type :=
| Http200 (body : A)
| HttpError (status_code : nat) (detail : str).

Arguments Http200 {A} body.
Arguments HttpError {A} status_code detail.

(** ** Numbers *)

(** The arithmetic the source relies on.  [num_lit] reads a decimal literal
    of the source ([20], [800], [25.0], [0.18], ...); [num_div] is the
    division of numpy, which does not raise; [num_is_zero] is the test behind
    Python's [ZeroDivisionError]; [num_is_nan] is [isnan]; [num_rint] is
    numpy's [rint] (round half to even), the core of [round(x, 2)]. *)
Class Number (F : Type) : Type := {
  num_lit : Q -> F;
  num_add : F -> F -> F;
  num_sub : F -> F -> F;
  num_mul : F -> F -> F;
  num_div : F -> F -> F;
  num_is_zero : F -> bool;
  num_is_nan : F -> bool;
  num_leb : F -> F -> bool;
  num_ltb : F -> F -> bool;
  num_rint : F -> F
}.

Declare Scope num_scope.
Delimit Scope num_scope with num.
Infix "+" := num_add : num_scope.
Infix "-" := num_sub : num_scope.
Infix "*" := num_mul : num_scope.
Infix "/" := num_div : num_scope.
Infix "<=?" := num_leb : num_scope.
Infix "<?" := num_ltb : num_scope.
Arguments num_lit {F Number} q%_Q.
Abbreviation lit := num_lit (only parsing).

(** *** Exact rationals in lowest terms *)

(** [rint] on a rational: the nearest integer, ties to the even one. *)
Definition Q_rint_Z (q : Q) : Z :=
  let f := Qfloor q in
  match Qcompare (q - inject_Z f) (1 # 2) with
  | Lt => f
  | Gt => (f + 1)%Z
  | Eq => if Z.even f then f else (f + 1)%Z
  end.

#[export] Instance Q_Number : Number Q := {
  num_lit q := Qred q;
  num_add x y := Qred (x + y);
  num_sub x y := Qred (x - y);
  num_mul x y := Qred (x * y);
  num_div x y := Qred (x / y);
  num_is_zero x := Qeq_bool x 0;
  num_is_nan _ := false;
  num_leb x y := Qle_bool x y;
  num_ltb x y := negb (Qle_bool y x);
  num_rint x := inject_Z (Q_rint_Z x)
}.

(** *** IEEE binary64 *)

Definition float_of_Z (z : Z) : float :=
  match z with
  | Z0 => PrimFloat.zero
  | Zpos _ => PrimFloat.of_uint63 (Uint63.of_Z z)
  | Zneg p => PrimFloat.opp (PrimFloat.of_uint63 (Uint63.of_Z (Zpos p)))
  end.

(** A decimal literal [n/d] is the correctly rounded quotient of the two
    integers, as the literal of the source is. *)
Definition float_lit (q : Q) : float :=
  PrimFloat.div (float_of_Z (Qnum q)) (float_of_Z (Zpos (Qden q))).

(** [rint] in round-to-nearest-even arithmetic: adding and subtracting 2^52
    leaves the nearest integer. *)
Definition float_rint (x : float) : float :=
  let two52 := float_of_Z 4503599627370496 in
  if PrimFloat.ltb (PrimFloat.abs x) two52 then
    let r := PrimFloat.sub (PrimFloat.add (PrimFloat.abs x) two52) two52 in
    if PrimFloat.get_sign x then PrimFloat.opp r else r
  else x.

#[export] Instance float_Number : Number float := {
  num_lit := float_lit;
  num_add := PrimFloat.add;
  num_sub := PrimFloat.sub;
  num_mul := PrimFloat.mul;
  num_div := PrimFloat.div;
  num_is_zero x := PrimFloat.eqb x PrimFloat.zero;
  num_is_nan := PrimFloat.is_nan;
  num_leb := PrimFloat.leb;
  num_ltb := PrimFloat.ltb;
  num_rint := float_rint
}.

(** ** Models *)

Section Program.

Context {F : Type} {NF : Number F}.
Local Open Scope num_scope.

(** [class PVSystem(BaseModel)] *)
Record PVSystem : Type := {
  power : F;
  inclination : F;
  azimuth : F;
  module_efficiency : F;
  temperature_coefficient : F;
  noct : F;
  system_losses : F
}.

(** The [Field] constraints of [PVSystem] ([gt], [ge], [le]). *)
Definition PVSystem_validate (s : PVSystem) : bool :=
  (lit 0 <? power s)
  && (lit 0 <=? inclination s) && (inclination s <=? lit 90)
  && (lit (-180) <=? azimuth s) && (azimuth s <=? lit 180)
  && (lit 0.1 <=? module_efficiency s) && (module_efficiency s <=? lit 0.25)
  && (lit (-0.01) <=? temperature_coefficient s)
  && (temperature_coefficient s <=? lit 0)
  && (lit 40 <=? noct s) && (noct s <=? lit 50)
  && (lit 0.05 <=? system_losses s) && (system_losses s <=? lit 0.25).

(** [class ForecastRequest(BaseModel)] *)
Record ForecastRequest : Type := {
  address : str;
  pv_systems : list PVSystem
}.

(** [address: min_length=3]; every entry of [pv_systems] a valid [PVSystem];
    [pv_systems: max_items=3]. *)
Definition ForecastRequest_validate (r : ForecastRequest) : bool :=
  (3 <=? length (address r))%nat
  && forallb PVSystem_validate (pv_systems r)
  && (length (pv_systems r) <=? 3)%nat.

(** ** numpy: one-dimensional arrays *)

(** An array of [float64] values. *)
Definition ndarray : Type := list F.

Fixpoint zip_with (f : F -> F -> F) (a b : list F) : list F :=
  match a, b with
  | x :: a', y :: b' => f x y :: zip_with f a' b'
  | _, _ => []
  end.

(** [a op b] for two one-dimensional arrays.  Shapes [(m,)] and [(n,)]
    broadcast when [m = n] or one of them is 1; otherwise numpy raises
    [ValueError: operands could not be broadcast together]. *)
Definition broadcast (f : F -> F -> F) (a b : ndarray) : result ndarray :=
  if (length a =? length b)%nat then Ok (zip_with f a b)
  else match a, b with
       | [x], _ => Ok (map (fun y => f x y) b)
       | _, [y] => Ok (map (fun x => f x y) a)
       | _, _ => Raise ValueError
       end.

(** [k op a] and [a op k] for a scalar [k]. *)
Definition scalar_array (f : F -> F -> F) (k : F) (a : ndarray) : ndarray :=
  map (fun x => f k x) a.

Definition array_scalar (f : F -> F -> F) (a : ndarray) (k : F) : ndarray :=
  map (fun x => f x k) a.

(** [x / y] on two Python floats. *)
Definition py_div (x y : F) : result F :=
  if num_is_zero y then Raise ZeroDivisionError else Ok (x / y).

(** ** The PV energy model *)

Definition STC_TEMPERATURE : F := lit 25.
Definition STC_IRRADIANCE : F := lit 1000.

Local Open Scope result_scope.

(** [def calculate_advanced_pv_energy(irradiance, ambient_temp, system)] *)
Definition calculate_advanced_pv_energy
    (irradiance ambient_temp : ndarray) (system : PVSystem) : result ndarray :=
  (* cell_temperature = ambient_temp + ((system.noct - 20) / 800) * irradiance *)
  cell_temperature <-
    broadcast num_add ambient_temp
      (scalar_array num_mul ((noct system - lit 20) / lit 800) irradiance) ;;
  (* module_efficiency = system.module_efficiency * (
         1 + system.temperature_coefficient * (cell_temperature - STC_TEMPERATURE)) *)
  let module_efficiency_ :=
    scalar_array num_mul (module_efficiency system)
      (scalar_array num_add (lit 1)
         (scalar_array num_mul (temperature_coefficient system)
            (array_scalar num_sub cell_temperature STC_TEMPERATURE))) in
  (* module_area = (system.power * 1000) / (system.module_efficiency * STC_IRRADIANCE) *)
  module_area <-
    py_div (power system * lit 1000) (module_efficiency system * STC_IRRADIANCE) ;;
  (* hourly_energy = irradiance * module_area * module_efficiency
                     * (1 - system.system_losses) / 1000 *)
  t <- broadcast num_mul (array_scalar num_mul irradiance module_area)
         module_efficiency_ ;;
  Ok (array_scalar num_div
        (array_scalar num_mul t (lit 1 - system_losses system)) (lit 1000)).

(** The hourly formula as the specification words it (sections 4.1.1 to
    4.1.4), to compare the source with: cell temperature, corrected
    efficiency, module area, hourly energy. *)
Definition spec_T_cell (system : PVSystem) (I_poa T_ambient : F) : F :=
  T_ambient + ((noct system - lit 20) / lit 800) * I_poa.

Definition spec_eta_eff (system : PVSystem) (T_c : F) : F :=
  module_efficiency system
  * (lit 1 + temperature_coefficient system * (T_c - lit 25)).

Definition spec_Area (system : PVSystem) : F :=
  (power system * lit 1000) / (module_efficiency system * lit 1000).

Definition spec_E_hour (system : PVSystem) (I_poa T_ambient : F) : F :=
  I_poa * spec_Area system
  * spec_eta_eff system (spec_T_cell system I_poa T_ambient)
  * (lit 1 - system_losses system) / lit 1000.

(** ** pandas: series on the index 0..n-1 *)

(** [pd.Series(values).reindex(range(n), fill_value=fill)]: label [i] keeps
    the value the series has for it and gets [fill] when the series has
    none; labels outside [range(n)] are dropped. *)
Definition reindex (n : nat) (fill : F) (values : list F) : list F :=
  map (fun i => match nth_error values i with
                | Some x => x
                | None => fill
                end) (seq 0 n).

(** [a += b] for two series that carry the same index (here always
    0..167), so that the alignment is by position. *)
Definition series_add (a b : list F) : list F := zip_with num_add a b.

(** [s[start:stop]] *)
Definition slice (s : list F) (start stop : nat) : list F :=
  firstn (stop - start) (skipn start s).

(** numpy's sum of a contiguous one-dimensional [float64] array
    ([np.add.reduce]): the result starts as the identity 0 and the pairwise
    summation routine of numpy is added to it.  That routine adds fewer than
    8 elements one after the other; for 8 to 128 elements it keeps 8
    running sums [r[0..7]] over the full blocks of 8, combines them as
    [((r0+r1)+(r2+r3))+((r4+r5)+(r6+r7))] and adds what is left one after
    the other; longer arrays are split in two near the middle, at a
    multiple of 8. *)
Definition tree8 (r : list F) : F :=
  match r with
  | [r0; r1; r2; r3; r4; r5; r6; r7] =>
      ((r0 + r1) + (r2 + r3)) + ((r4 + r5) + (r6 + r7))
  | _ => lit 0
  end.

Fixpoint accumulate8 (blocks : nat) (r rest : list F) : list F :=
  match blocks with
  | 0%nat => r
  | S blocks' =>
      accumulate8 blocks' (zip_with num_add r (firstn 8 rest)) (skipn 8 rest)
  end.

Fixpoint pairwise_sum (fuel : nat) (a : list F) : F :=
  let n := length a in
  if (n <? 8)%nat then fold_left num_add a (lit 0)
  else if (n <=? 128)%nat then
    let full := (n - n mod 8)%nat in
    let r := accumulate8 (full / 8 - 1) (firstn 8 a) (skipn 8 a) in
    fold_left num_add (skipn full a) (tree8 r)
  else
    match fuel with
    | 0%nat => lit 0
    | S fuel' =>
        let n2 := (n / 2 - (n / 2) mod 8)%nat in
        pairwise_sum fuel' (firstn n2 a) + pairwise_sum fuel' (skipn n2 a)
    end.

Definition np_sum (a : list F) : F := lit 0 + pairwise_sum (length a) a.

(** [s.sum()]: pandas skips NaN ([skipna=True]): every NaN is replaced by
    0.0 and the array is summed by numpy. *)
Definition nan_to_zero (x : F) : F := if num_is_nan x then lit 0 else x.

Definition series_sum (s : list F) : F := np_sum (map nan_to_zero s).

(** [round(x, 2)] on a numpy float, and [Series.round(2)] on each element:
    [rint(x * 100) / 100]. *)
Definition round2 (x : F) : F := num_rint (x * lit 100) / lit 100.

(** ** Collaborators *)

(** What [geolocator.geocode] returns for one place. *)
Record Location : Type := {
  loc_address : str;
  loc_latitude : F;
  loc_longitude : F
}.

(** The geocoder.  [geocode text] is [geolocator.geocode(text)]: a location,
    [None], or an exception.  [geocode_many text limit] is
    [geolocator.geocode(text, exactly_one=False, limit=limit)]: a list of
    locations, [None], or an exception. *)
Record Geocoder : Type := {
  geocode : str -> geocoded Location;
  geocode_many : str -> nat -> geocoded (list Location)
}.

(** The parameters of one weather request that vary; [hourly] and
    [forecast_days = 7] are constants of the source. *)
Record weather_params : Type := {
  wp_latitude : F;
  wp_longitude : F;
  wp_tilt : F;
  wp_azimuth : F
}.

(** The weather client: what the [k]-th call of a request
    ([openmeteo.weather_api] and the unpacking of variables 0 and 1 of its
    first response) yields: the irradiance and the ambient temperature
    arrays, or an exception. *)
Definition WeatherClient : Type :=
  nat -> weather_params -> result (ndarray * ndarray).

(** ** GET /api/geocode *)

(** One entry of ["suggestions"]. *)
Record Suggestion : Type := {
  sug_address : str;
  sug_latitude : F;
  sug_longitude : F
}.

(** [async def geocode_address(query)].  The second component is the list
    of queries sent to the geocoder, in order. *)
Definition geocode_address (geolocator : Geocoder) (query : str)
    : http (list Suggestion) * list str :=
  if (length (strip query) <? 3)%nat then (Http200 [], [])
  else
    match geocode_many geolocator query 5 with
    | Found locations =>
        (* an empty list is falsy as [None] is: no suggestion either way *)
        (Http200 (map (fun location =>
                         {| sug_address := loc_address location;
                            sug_latitude := loc_latitude location;
                            sug_longitude := loc_longitude location |})
                      locations),
         [query])
    | NotFound => (Http200 [], [query])
    | GeocoderError _ => (Http200 [], [query])
    end.

(** ** POST /api/forecast *)

Record ForecastResult : Type := {
  latitude : F;
  longitude : F;
  hourly_forecast_kwh : list F;
  daily_totals_kwh : list F;
  total_daily_kwh : F
}.

(** The body of the [try] of the loop, for the [k]-th system. *)
Definition process_system (weather : WeatherClient) (k : nat)
    (lat lon : F) (system : PVSystem) : result (list F) :=
  '(irradiance, ambient_temp) <-
     weather k {| wp_latitude := lat; wp_longitude := lon;
                  wp_tilt := inclination system;
                  wp_azimuth := azimuth system |} ;;
  hourly_kwh <- calculate_advanced_pv_energy irradiance ambient_temp system ;;
  Ok (reindex 168 (lit 0) hourly_kwh).

(** [for system in request.pv_systems: try: ... except Exception: continue],
    threading [total_hourly_kwh] and the number of weather calls made. *)
Fixpoint forecast_loop (weather : WeatherClient) (lat lon : F) (k : nat)
    (systems : list PVSystem) (total_hourly_kwh : list F) : list F :=
  match systems with
  | [] => total_hourly_kwh
  | system :: rest =>
      match process_system weather k lat lon system with
      | Ok series_kwh =>
          forecast_loop weather lat lon (S k) rest
            (series_add total_hourly_kwh series_kwh)
      | Raise _ =>
          forecast_loop weather lat lon (S k) rest total_hourly_kwh
      end
  end.

(** [for day in range(7): ... daily_totals.append(round(daily_kwh, 2))] *)
Definition daily_totals (total_hourly_kwh : list F) : list F :=
  map (fun day =>
         let start_hour := (day * 24)%nat in
         let end_hour := (start_hour + 24)%nat in
         round2 (series_sum (slice total_hourly_kwh start_hour end_hour)))
      (seq 0 7).

(** [async def get_pv_forecast(request)] *)
Definition get_pv_forecast (geolocator : Geocoder) (weather : WeatherClient)
    (request : ForecastRequest) : http ForecastResult :=
  match geocode geolocator (address request) with
  | GeocoderError message =>
      HttpError 500 (str_of "Geocoding failed: " ++ message)
  | NotFound =>
      HttpError 404
        (str_of "Address not found: '" ++ address request
         ++ str_of "'. Please try a more specific address.")
  | Found location =>
      let total_hourly_kwh :=
        forecast_loop weather (loc_latitude location) (loc_longitude location)
          0 (pv_systems request) (repeat (lit 0) 168) in
      let daily := daily_totals total_hourly_kwh in
      Http200 {| latitude := loc_latitude location;
                 longitude := loc_longitude location;
                 hourly_forecast_kwh := map round2 total_hourly_kwh;
                 daily_totals_kwh := daily;
                 total_daily_kwh := round2 (nth 0 daily (lit 0)) |}
  end.

End Program.

Arguments PVSystem F : clear implicits.
Arguments ForecastRequest F : clear implicits.
Arguments Location F : clear implicits.
Arguments Geocoder F : clear implicits.
Arguments weather_params F : clear implicits.
Arguments WeatherClient F : clear implicits.
Arguments Suggestion F : clear implicits.
Arguments ForecastResult F : clear implicits.
Arguments ndarray F : clear implicits.


(** The client whose calls are those of [weather] without the [i]-th. *)
Definition skip_call {F : Type} (i : nat) (weather : WeatherClient F)
    : WeatherClient F :=
  fun k params => if (k <? i)%nat then weather k params
                  else weather (S k) params.

(** [l] without its [i]-th element. *)
Definition remove_nth {A : Type} (i : nat) (l : list A) : list A :=
  firstn i l ++ skipn (S i) l.

(** The value of [total_hourly_kwh] when the loop of [get_pv_forecast] has
    ended: the combined hourly series, not yet rounded. *)
Definition combined_hourly_kwh {F : Type} {NF : Number F}
    (weather : WeatherClient F) (location : Location F)
    (request : ForecastRequest F) : list F :=
  forecast_loop weather (loc_latitude location) (loc_longitude location)
    0 (pv_systems request) (repeat (lit 0) 168).


(** ** The series a forecast adds up *)

Section Processed.

Context {F : Type} {NF : Number F}.

(** The series of the systems whose [try] went through, in the order of the
    loop: what is added to [total_hourly_kwh]. *)
Fixpoint processed_series (weather : WeatherClient F) (lat lon : F) (k : nat)
    (systems : list (PVSystem F)) : list (list F) :=
  match systems with
  | [] => []
  | system :: rest =>
      match process_system weather k lat lon system with
      | Ok series_kwh =>
          series_kwh :: processed_series weather lat lon (S k) rest
      | Raise _ => processed_series weather lat lon (S k) rest
      end
  end.

End Processed.

(** The plain sum of a list of rationals (no reduction to lowest terms). *)
Definition Qsum (l : list Q) : Q := fold_right Qplus 0%Q l.

(** ** Sample data *)

Section Samples.

Context {F : Type} {NF : Number F}.

Definition sample_system : PVSystem F :=
  {| power := lit 5;
     inclination := lit 30;
     azimuth := lit 0;
     module_efficiency := lit 0.18;
     temperature_coefficient := lit (-0.0035);
     noct := lit 45;
     system_losses := lit 0.14 |}.

(** The system of the specification's example: 5 kWp, 20 % efficiency, no
    temperature derating, no losses. *)
Definition stc_system (tilt facing : F) : PVSystem F :=
  {| power := lit 5;
     inclination := tilt;
     azimuth := facing;
     module_efficiency := lit 0.20;
     temperature_coefficient := lit 0;
     noct := lit 45;
     system_losses := lit 0 |}.

Definition sample_location : Location F :=
  {| loc_address := str_of "Berlin, Deutschland";
     loc_latitude := lit 52.52;
     loc_longitude := lit 13.405 |}.

Definition sample_geolocator : Geocoder F :=
  {| geocode := fun _ => Found sample_location;
     geocode_many := fun _ _ => Found [sample_location] |}.

(** A weather client whose first call answers with two hours only, whose
    second call fails, and whose later calls answer with 170 hours. *)
Definition sample_weather : WeatherClient F :=
  fun k _ =>
    match k with
    | 0 => Ok ([lit 1000; lit 500], [lit 25; lit 20])
    | 1 => Raise CollaboratorError
    | _ => Ok (repeat (lit 1000) 170, repeat (lit 25) 170)
    end.

Definition sample_request : ForecastRequest F :=
  {| address := str_of "Berlin";
     pv_systems := [sample_system; sample_system; sample_system] |}.

Definition empty_request : ForecastRequest F :=
  {| address := str_of "Berlin"; pv_systems := [] |}.

End Samples.




(** * Facts that hold in every arithmetic *)

Section Structure.

Context {F : Type} {NF : Number F}.
Local Open Scope num_scope.

Lemma zip_with_length (f : F -> F -> F) (a b : list F) :
  length (zip_with f a b) = Nat.min (length a) (length b).
Proof.
  revert b; induction a as [|x a IH]; intros [|y b]; simpl; auto.
Qed.

Lemma zip_with_nth_error (f : F -> F -> F) (a b : list F) i x y :
  nth_error a i = Some x -> nth_error b i = Some y ->
  nth_error (zip_with f a b) i = Some (f x y).
Proof.
  revert b i; induction a as [|x0 a IH]; intros [|y0 b] [|i]; simpl;
    try discriminate; intros Ha Hb.
  - congruence.
  - now apply IH.
Qed.

Lemma broadcast_same_length (f : F -> F -> F) (a b : list F) :
  length a = length b -> broadcast f a b = Ok (zip_with f a b).
Proof.
  intros H. unfold broadcast. now rewrite H, Nat.eqb_refl.
Qed.

Lemma broadcast_mismatch (f : F -> F -> F) (a b : list F) :
  length a <> length b -> length a <> 1 -> length b <> 1 ->
  broadcast f a b = Raise ValueError.
Proof.
  intros Hab Ha Hb. unfold broadcast.
  apply Nat.eqb_neq in Hab. rewrite Hab.
  destruct a as [|x [|x' a]], b as [|y [|y' b]]; simpl in *;
    congruence.
Qed.

(** The whole-array expression of the source, once both broadcasts have
    gone through position by position, is the hourly formula applied at
    each index. *)
Lemma energy_arrays_pointwise (system : PVSystem F) (irradiance ambient_temp : list F) :
  array_scalar num_div
    (array_scalar num_mul
       (zip_with num_mul
          (array_scalar num_mul irradiance (spec_Area system))
          (scalar_array num_mul (module_efficiency system)
             (scalar_array num_add (lit 1)
                (scalar_array num_mul (temperature_coefficient system)
                   (array_scalar num_sub
                      (zip_with num_add ambient_temp
                         (scalar_array num_mul
                            ((noct system - lit 20) / lit 800) irradiance))
                      STC_TEMPERATURE)))))
       (lit 1 - system_losses system)) (lit 1000)
  = zip_with (spec_E_hour system) irradiance ambient_temp.
Proof.
  revert ambient_temp.
  induction irradiance as [|I irr IH]; intros [|T amb]; try reflexivity.
  unfold array_scalar, scalar_array in *. simpl.
  f_equal. apply IH.
Qed.

Lemma calculate_same_length (system : PVSystem F) (irradiance ambient_temp : list F) :
  length irradiance = length ambient_temp ->
  num_is_zero (module_efficiency system * lit 1000) = false ->
  calculate_advanced_pv_energy irradiance ambient_temp system
  = Ok (zip_with (spec_E_hour system) irradiance ambient_temp).
Proof.
  intros Hlen Hz. unfold calculate_advanced_pv_energy.
  rewrite broadcast_same_length
    by (unfold scalar_array; rewrite length_map; auto).
  cbn [bind]. unfold py_div, STC_IRRADIANCE. rewrite Hz. cbn [bind].
  rewrite broadcast_same_length.
  - cbn [bind]. f_equal. apply energy_arrays_pointwise.
  - unfold scalar_array, array_scalar.
    rewrite !length_map, zip_with_length, length_map. lia.
Qed.

(** When the two lengths differ and neither is 1, the first array addition
    already raises. *)
Lemma calculate_mismatch (system : PVSystem F) (irradiance ambient_temp : list F) :
  length irradiance <> length ambient_temp ->
  length irradiance <> 1 -> length ambient_temp <> 1 ->
  calculate_advanced_pv_energy irradiance ambient_temp system = Raise ValueError.
Proof.
  intros Hne Hi Ha. unfold calculate_advanced_pv_energy.
  rewrite broadcast_mismatch; auto;
    unfold scalar_array; rewrite length_map; auto.
Qed.

Lemma zip_with_map_both (f : F -> F -> F) (g h : F -> F) (a : list F) :
  zip_with f (map g a) (map h a) = map (fun x => f (g x) (h x)) a.
Proof.
  induction a as [|x a IH]; cbn; [reflexivity|]. now rewrite IH.
Qed.

(** A one-hour irradiance array is stretched over the temperatures. *)
Lemma calculate_broadcast_irradiance (system : PVSystem F) (I : F)
    (ambient_temp : list F) :
  length ambient_temp <> 1 ->
  num_is_zero (module_efficiency system * lit 1000) = false ->
  calculate_advanced_pv_energy [I] ambient_temp system
  = Ok (map (fun T => spec_E_hour system I T) ambient_temp).
Proof.
  intros Hlen Hz. unfold calculate_advanced_pv_energy.
  unfold py_div, STC_IRRADIANCE. rewrite Hz.
  destruct ambient_temp as [|T [|T' amb]];
    [reflexivity|now contradiction Hlen|].
  unfold broadcast, scalar_array, array_scalar.
  cbn [map length Nat.eqb bind]. rewrite ?length_map.
  cbn [length Nat.eqb bind]. f_equal.
  rewrite ?map_map. reflexivity.
Qed.

(** A one-hour temperature array is stretched over the irradiances. *)
Lemma calculate_broadcast_temperature (system : PVSystem F) (T : F)
    (irradiance : list F) :
  length irradiance <> 1 ->
  num_is_zero (module_efficiency system * lit 1000) = false ->
  calculate_advanced_pv_energy irradiance [T] system
  = Ok (map (fun I => spec_E_hour system I T) irradiance).
Proof.
  intros Hlen Hz. unfold calculate_advanced_pv_energy.
  unfold py_div, STC_IRRADIANCE. rewrite Hz.
  assert (Hb : broadcast num_add [T]
                 (scalar_array num_mul ((noct system - lit 20) / lit 800)
                    irradiance)
               = Ok (map (fun I => spec_T_cell system I T) irradiance)).
  { unfold broadcast, scalar_array. rewrite length_map. cbn [length].
    destruct irradiance as [|I [|I' irr]];
      [reflexivity|now contradiction Hlen|].
    cbn [Nat.eqb]. now rewrite map_map. }
  rewrite Hb. cbn [bind].
  rewrite broadcast_same_length
    by (unfold scalar_array, array_scalar; now rewrite !length_map).
  cbn [bind]. f_equal.
  unfold scalar_array, array_scalar. rewrite !map_map.
  rewrite zip_with_map_both, !map_map. reflexivity.
Qed.




End Structure.

(** * The aggregator *)

Section Aggregator.

Context {F : Type} {NF : Number F}.

Lemma reindex_firstn_fill (n : nat) (fill : F) (values : list F) :
  reindex n fill values = firstn n values ++ repeat fill (n - length values).
Proof.
  unfold reindex. revert values.
  induction n as [|n IH]; intros values; [reflexivity|].
  cbn [seq map]. rewrite <- seq_shift, map_map.
  destruct values as [|x values].
  - cbn [nth_error firstn length app Nat.sub repeat]. f_equal.
    rewrite map_ext with (g := fun i => match nth_error (@nil F) i with
                                        | Some y => y
                                        | None => fill
                                        end)
      by (intros i; now destruct i).
    rewrite IH, firstn_nil. cbn [length app]. now rewrite Nat.sub_0_r.
  - cbn [nth_error firstn length app Nat.sub]. f_equal. apply IH.
Qed.

Lemma reindex_length (n : nat) (fill : F) (values : list F) :
  length (reindex n fill values) = n.
Proof. unfold reindex. now rewrite length_map, length_seq. Qed.


Lemma reindex_long (n : nat) (fill : F) (values : list F) :
  n <= length values -> reindex n fill values = firstn n values.
Proof.
  intros H. rewrite reindex_firstn_fill.
  replace (n - length values) with 0 by lia. apply app_nil_r.
Qed.

Lemma series_add_length (a b : list F) :
  length a = 168 -> length b = 168 -> length (series_add a b) = 168.
Proof.
  intros Ha Hb. unfold series_add. rewrite zip_with_length. lia.
Qed.

Lemma process_system_length (weather : WeatherClient F) k lat lon system series :
  process_system weather k lat lon system = Ok series -> length series = 168.
Proof.
  unfold process_system.
  destruct (weather k _) as [[irradiance ambient_temp]|e]; cbn [bind];
    [|discriminate].
  destruct (calculate_advanced_pv_energy _ _ _) as [hourly|e]; cbn [bind];
    [|discriminate].
  intros H. injection H as <-. apply reindex_length.
Qed.

Lemma forecast_loop_length (weather : WeatherClient F) lat lon systems :
  forall k total, length total = 168 ->
  length (forecast_loop weather lat lon k systems total) = 168.
Proof.
  induction systems as [|system rest IH]; intros k total Ht; [exact Ht|].
  cbn [forecast_loop].
  destruct (process_system weather k lat lon system) as [series|e] eqn:Hp.
  - apply IH. apply series_add_length; [exact Ht|].
    eapply process_system_length; eauto.
  - now apply IH.
Qed.

Lemma daily_totals_length (total : list F) : length (daily_totals total) = 7.
Proof. unfold daily_totals. now rewrite length_map, length_seq. Qed.

Lemma process_system_skip_before (weather : WeatherClient F) i k lat lon system :
  k < i ->
  process_system (skip_call i weather) k lat lon system
  = process_system weather k lat lon system.
Proof.
  intros H. unfold process_system, skip_call.
  destruct (Nat.ltb_spec k i); [reflexivity|lia].
Qed.

Lemma process_system_skip_after (weather : WeatherClient F) i k lat lon system :
  i <= k ->
  process_system (skip_call i weather) k lat lon system
  = process_system weather (S k) lat lon system.
Proof.
  intros H. unfold process_system, skip_call.
  destruct (Nat.ltb_spec k i); [lia|reflexivity].
Qed.

(** After a call that is skipped, the remaining calls of the loop are
    those of the client with that call left out. *)
Lemma forecast_loop_after_skip (weather : WeatherClient F) lat lon i systems :
  forall k total, i <= k ->
  forecast_loop weather lat lon (S k) systems total
  = forecast_loop (skip_call i weather) lat lon k systems total.
Proof.
  induction systems as [|system rest IH]; intros k total Hk; [reflexivity|].
  cbn [forecast_loop]. rewrite process_system_skip_after by exact Hk.
  destruct (process_system weather (S k) lat lon system);
    apply IH; lia.
Qed.

Lemma forecast_loop_skips_failure (weather : WeatherClient F) lat lon
    (before : list (PVSystem F)) system after e :
  forall k total,
  process_system weather (k + length before) lat lon system = Raise e ->
  forecast_loop weather lat lon k (before ++ system :: after) total
  = forecast_loop (skip_call (k + length before) weather) lat lon k
      (before ++ after) total.
Proof.
  induction before as [|s before IH]; intros k total Hfail.
  - cbn [app length] in *. rewrite Nat.add_0_r in *.
    cbn [forecast_loop]. rewrite Hfail.
    apply forecast_loop_after_skip. lia.
  - cbn [app length forecast_loop] in *.
    replace (k + S (length before)) with (S k + length before) in * by lia.
    rewrite process_system_skip_before by lia.
    destruct (process_system weather k lat lon s); now apply IH.
Qed.

Lemma process_system_fails (weather : WeatherClient F) k lat lon system e :
  let params := {| wp_latitude := lat; wp_longitude := lon;
                   wp_tilt := inclination system;
                   wp_azimuth := azimuth system |} in
  weather k params = Raise e
  \/ (exists irradiance ambient_temp,
        weather k params = Ok (irradiance, ambient_temp)
        /\ calculate_advanced_pv_energy irradiance ambient_temp system
           = Raise e) ->
  process_system weather k lat lon system = Raise e.
Proof.
  intros params [H|(irradiance & ambient_temp & Hw & Hc)];
    unfold process_system; fold params; rewrite ?H, ?Hw; cbn [bind];
    [reflexivity|]. now rewrite Hc.
Qed.

Lemma remove_nth_split {A : Type} (l : list A) i x :
  nth_error l i = Some x ->
  exists before after,
    l = before ++ x :: after /\ length before = i
    /\ remove_nth i l = before ++ after.
Proof.
  intros H. destruct (nth_error_split l i H) as (l1 & l2 & -> & Hlen).
  exists l1, l2. repeat split; auto.
  unfold remove_nth. subst i.
  rewrite firstn_app, firstn_all, Nat.sub_diag, app_nil_r.
  rewrite skipn_app, skipn_all2 by lia.
  replace (S (length l1) - length l1) with 1 by lia. reflexivity.
Qed.



Lemma get_pv_forecast_found (geolocator : Geocoder F) weather request location :
  geocode geolocator (address request) = Found location ->
  get_pv_forecast geolocator weather request
  = let total := combined_hourly_kwh weather location request in
    Http200 {| latitude := loc_latitude location;
               longitude := loc_longitude location;
               hourly_forecast_kwh := map round2 total;
               daily_totals_kwh := daily_totals total;
               total_daily_kwh := round2 (nth 0 (daily_totals total) (lit 0)) |}.
Proof.
  intros H. unfold get_pv_forecast. now rewrite H.
Qed.

Lemma combined_hourly_length weather (location : Location F) request :
  length (combined_hourly_kwh weather location request) = 168.
Proof.
  unfold combined_hourly_kwh. apply forecast_loop_length. apply repeat_length.
Qed.

(** ** The loop as a fold *)

Lemma forecast_loop_fold (weather : WeatherClient F) lat lon systems :
  forall k total,
  forecast_loop weather lat lon k systems total
  = fold_left series_add (processed_series weather lat lon k systems) total.
Proof.
  induction systems as [|system rest IH]; intros k total; [reflexivity|].
  cbn [forecast_loop processed_series].
  destruct (process_system weather k lat lon system); cbn [fold_left];
    apply IH.
Qed.

Lemma processed_series_all_fail (weather : WeatherClient F) lat lon systems :
  forall k,
  (forall i system, nth_error systems i = Some system ->
                    exists e, process_system weather (k + i) lat lon system
                              = Raise e) ->
  processed_series weather lat lon k systems = [].
Proof.
  induction systems as [|system rest IH]; intros k Hfail; [reflexivity|].
  cbn [processed_series].
  destruct (Hfail 0 system eq_refl) as [e He].
  rewrite Nat.add_0_r in He. rewrite He.
  apply IH. intros i s Hs.
  replace (S k + i) with (k + S i) by lia. now apply Hfail.
Qed.

Lemma zip_with_nth (f : F -> F -> F) (a b : list F) (i : nat) (d : F) :
  i < length a -> i < length b ->
  nth i (zip_with f a b) d = f (nth i a d) (nth i b d).
Proof.
  revert b i. induction a as [|x a IH]; intros [|y b] [|i]; cbn [length];
    try lia; intros Ha Hb; cbn [zip_with nth]; [reflexivity|].
  apply IH; lia.
Qed.

Lemma processed_series_lengths (weather : WeatherClient F) lat lon systems :
  forall k,
  Forall (fun s => length s = 168)
    (processed_series weather lat lon k systems).
Proof.
  induction systems as [|system rest IH]; intros k; [constructor|].
  cbn [processed_series].
  destruct (process_system weather k lat lon system) as [s|e] eqn:Hp;
    [|apply IH].
  constructor; [|apply IH]. eapply process_system_length; eauto.
Qed.

(** Hour by hour, the fold of [+=] over a list of series adds the values
    of that hour, from the first series to the last. *)
Lemma fold_series_add_hour (ss : list (list F)) (h : nat) (d : F) :
  h < 168 -> Forall (fun s => length s = 168) ss ->
  forall total, length total = 168 ->
  nth h (fold_left series_add ss total) d
  = fold_left num_add (map (fun s => nth h s d) ss) (nth h total d).
Proof.
  intros Hh Hss. induction Hss as [|s ss Hs Hss IH]; intros total Ht;
    [reflexivity|].
  cbn [fold_left map]. rewrite IH by now apply series_add_length.
  unfold series_add. now rewrite zip_with_nth by lia.
Qed.

Lemma combined_hourly_hour (weather : WeatherClient F) (location : Location F)
    (request : ForecastRequest F) (h : nat) :
  h < 168 ->
  nth h (combined_hourly_kwh weather location request) (lit 0)
  = fold_left num_add
      (map (fun s => nth h s (lit 0))
         (processed_series weather (loc_latitude location)
            (loc_longitude location) 0 (pv_systems request)))
      (lit 0).
Proof.
  intros Hh. unfold combined_hourly_kwh. rewrite forecast_loop_fold.
  rewrite fold_series_add_hour;
    [|exact Hh|apply processed_series_lengths|apply repeat_length].
  now rewrite nth_repeat_lt by exact Hh.
Qed.

Lemma processed_series_after_skip (weather : WeatherClient F) lat lon i systems :
  forall k, i <= k ->
  processed_series weather lat lon (S k) systems
  = processed_series (skip_call i weather) lat lon k systems.
Proof.
  induction systems as [|system rest IH]; intros k Hk; [reflexivity|].
  cbn [processed_series]. rewrite process_system_skip_after by exact Hk.
  destruct (process_system weather (S k) lat lon system);
    rewrite IH by lia; reflexivity.
Qed.

Lemma processed_series_skips_failure (weather : WeatherClient F) lat lon
    (before : list (PVSystem F)) system after e :
  forall k,
  process_system weather (k + length before) lat lon system = Raise e ->
  processed_series weather lat lon k (before ++ system :: after)
  = processed_series (skip_call (k + length before) weather) lat lon k
      (before ++ after).
Proof.
  induction before as [|s before IH]; intros k Hfail.
  - cbn [app length] in *. rewrite Nat.add_0_r in *.
    cbn [processed_series]. rewrite Hfail.
    apply processed_series_after_skip. lia.
  - cbn [app length processed_series] in *.
    replace (k + S (length before)) with (S k + length before) in * by lia.
    rewrite process_system_skip_before by lia.
    destruct (process_system weather k lat lon s); now rewrite IH.
Qed.


End Aggregator.

(** * Strings *)

Lemma lstrip_length (s : str) : length (lstrip s) <= length s.
Proof.
  induction s as [|c s IH]; cbn [lstrip length]; [lia|].
  destruct (is_space c); cbn [length]; lia.
Qed.

Lemma rstrip_length (s : str) : length (rstrip s) <= length s.
Proof.
  unfold rstrip. rewrite length_rev.
  etransitivity; [apply lstrip_length|]. now rewrite length_rev.
Qed.

Lemma strip_length (s : str) : length (strip s) <= length s.
Proof.
  unfold strip.
  etransitivity; [apply rstrip_length|apply lstrip_length].
Qed.

(** * Facts of exact arithmetic *)

Section Exact.

Local Open Scope num_scope.






(** A validated system has an efficiency of at least 0.1, so the division
    that gives the module area does not raise. *)
Lemma valid_system_area_defined (system : PVSystem Q) :
  PVSystem_validate system = true ->
  num_is_zero (module_efficiency system * lit 1000) = false.
Proof.
  unfold PVSystem_validate. rewrite !andb_true_iff.
  cbn [num_leb num_ltb num_lit num_mul num_is_zero Q_Number].
  intros H. decompose [and] H. clear H.
  match goal with
  | Hle : Qle_bool (Qred 0.1) (module_efficiency system) = true |- _ =>
      apply Qle_bool_iff in Hle; rewrite Qred_correct in Hle
  end.
  destruct (Qeq_bool _ 0) eqn:E; [|reflexivity].
  apply Qeq_bool_iff in E. repeat rewrite Qred_correct in E. lra.
Qed.



End Exact.

(** * The properties of the specification *)

Section Properties.

Context {F : Type} {NF : Number F}.
Local Open Scope num_scope.

(** C1.  For two input series of equal length and a system whose
    efficiency is not zero (every validated configuration: the field lies in
    [0.10, 0.25]), the energy model returns a series of the same length
    whose [i]-th element is
    [irradiance[i] * Area * eta_eff_i * (1 - system_losses) / 1000], with
    [Area], [eta_eff_i] and [T_cell_i] as the specification defines them. *)
Theorem energy_model_matches_formula (irradiance ambient_temp : list F)
    (system : PVSystem F) :
  length irradiance = length ambient_temp ->
  num_is_zero (module_efficiency system * lit 1000) = false ->
  exists energy_kwh,
    calculate_advanced_pv_energy irradiance ambient_temp system = Ok energy_kwh
    /\ length energy_kwh = length irradiance
    /\ forall i I T,
         nth_error irradiance i = Some I ->
         nth_error ambient_temp i = Some T ->
         nth_error energy_kwh i
         = Some (I * spec_Area system
                 * spec_eta_eff system (spec_T_cell system I T)
                 * (lit 1 - system_losses system) / lit 1000).
Proof.
  intros Hlen Hz.
  exists (zip_with (spec_E_hour system) irradiance ambient_temp).
  split; [now apply calculate_same_length|].
  split; [rewrite zip_with_length; lia|].
  intros i I T HI HT.
  now rewrite (zip_with_nth_error (spec_E_hour system) _ _ _ HI HT).
Qed.

(** C4, as amended.  When the two input series have different lengths and
    neither has length 1, the energy model raises numpy's shape-mismatch
    [ValueError] and produces no series.  When exactly one of them has
    length 1, numpy broadcasts it: the single value is used for every hour
    of the other series. *)
Theorem length_mismatch_raises_unless_broadcast (irradiance ambient_temp : list F)
    (system : PVSystem F) :
  length irradiance <> length ambient_temp ->
  (length irradiance <> 1 -> length ambient_temp <> 1 ->
   calculate_advanced_pv_energy irradiance ambient_temp system
   = Raise ValueError)
  /\ (forall I, irradiance = [I] ->
      num_is_zero (module_efficiency system * lit 1000) = false ->
      calculate_advanced_pv_energy irradiance ambient_temp system
      = Ok (map (fun T => spec_E_hour system I T) ambient_temp))
  /\ (forall T, ambient_temp = [T] ->
      num_is_zero (module_efficiency system * lit 1000) = false ->
      calculate_advanced_pv_energy irradiance ambient_temp system
      = Ok (map (fun I => spec_E_hour system I T) irradiance)).
Proof.
  intros Hne. repeat split.
  - intros Hi Ha. now apply calculate_mismatch.
  - intros I -> Hz. apply calculate_broadcast_irradiance; auto.
  - intros T -> Hz. apply calculate_broadcast_temperature; auto.
Qed.

(** C5, as amended.  Validation rejects every request with more than 3 PV
    systems (so one with 4), and accepts every request whose address has at
    least 3 characters and whose 0 to 3 systems are each valid: there is no
    lower bound on the number of systems. *)
Theorem request_validation_bounds (request : ForecastRequest F) :
  (3 < length (pv_systems request) ->
   ForecastRequest_validate request = false)
  /\ (length (pv_systems request) = 4 ->
      ForecastRequest_validate request = false)
  /\ (3 <= length (address request) ->
      forallb PVSystem_validate (pv_systems request) = true ->
      length (pv_systems request) <= 3 ->
      ForecastRequest_validate request = true).
Proof.
  unfold ForecastRequest_validate. repeat split.
  - intros H. apply Nat.leb_gt in H. rewrite H. apply andb_false_r.
  - intros H. rewrite H. apply andb_false_r.
  - intros Ha Hs Hn. apply Nat.leb_le in Ha, Hn. now rewrite Ha, Hs, Hn.
Qed.

(** C6.  Once the address is resolved, a system whose weather fetch or
    whose energy computation raises contributes nothing, and the request is
    still answered with status 200.  The series that are added up are those
    of the other systems: every hour of the answer is the rounded sum,
    taken from 0 in the order of the request, of that hour of the series of
    the systems that went through; the failing system is not among them,
    and the answer is the one the request gets without it. *)
Theorem failed_system_is_skipped (geolocator : Geocoder F)
    (weather : WeatherClient F) (request : ForecastRequest F)
    (location : Location F) (i : nat) (system : PVSystem F) (e : exn) :
  geocode geolocator (address request) = Found location ->
  nth_error (pv_systems request) i = Some system ->
  (let params := {| wp_latitude := loc_latitude location;
                    wp_longitude := loc_longitude location;
                    wp_tilt := inclination system;
                    wp_azimuth := azimuth system |} in
   weather i params = Raise e
   \/ exists irradiance ambient_temp,
        weather i params = Ok (irradiance, ambient_temp)
        /\ calculate_advanced_pv_energy irradiance ambient_temp system
           = Raise e) ->
  let survivors :=
    processed_series (skip_call i weather) (loc_latitude location)
      (loc_longitude location) 0 (remove_nth i (pv_systems request)) in
  exists body,
    get_pv_forecast geolocator weather request = Http200 body
    /\ (forall h,
          (h < 168)%nat ->
          nth_error (hourly_forecast_kwh body) h
          = Some (num_rint
                    (fold_left num_add
                       (map (fun series_kwh => nth h series_kwh (lit 0))
                          survivors)
                       (lit 0)
                     * lit 100)
                  / lit 100))
    /\ processed_series weather (loc_latitude location)
         (loc_longitude location) 0 (pv_systems request)
       = survivors
    /\ get_pv_forecast geolocator weather request
       = get_pv_forecast geolocator (skip_call i weather)
           {| address := address request;
              pv_systems := remove_nth i (pv_systems request) |}.
Proof.
  intros Hgeo Hnth Hfail survivors.
  apply process_system_fails in Hfail.
  destruct (remove_nth_split _ _ Hnth) as (before & after & Hl & Hi & Hr).
  assert (Hs : processed_series weather (loc_latitude location)
                 (loc_longitude location) 0 (pv_systems request)
               = survivors).
  { unfold survivors. rewrite Hr, Hl. subst i.
    now apply processed_series_skips_failure with (k := 0%nat) (e := e). }
  assert (Hloop : combined_hourly_kwh weather location request
                  = combined_hourly_kwh (skip_call i weather) location
                      {| address := address request;
                         pv_systems := remove_nth i (pv_systems request) |}).
  { unfold combined_hourly_kwh. cbn [pv_systems]. rewrite Hr, Hl.
    subst i.
    now apply forecast_loop_skips_failure with (k := 0%nat) (e := e). }
  rewrite (get_pv_forecast_found _ weather _ Hgeo).
  rewrite (get_pv_forecast_found _ (skip_call i weather)
             {| address := address request;
                pv_systems := remove_nth i (pv_systems request) |} Hgeo).
  cbv zeta. eexists. split; [reflexivity|].
  cbn [hourly_forecast_kwh]. split; [|split; [exact Hs|now rewrite Hloop]].
  intros h Hh. rewrite nth_error_map.
  pose proof (combined_hourly_length weather location request) as Hlen.
  destruct (nth_error (combined_hourly_kwh weather location request) h)
    as [x|] eqn:Hx; [|apply nth_error_None in Hx; lia].
  cbn [option_map]. unfold round2. do 4 f_equal.
  rewrite <- (nth_error_nth _ _ (lit 0) Hx), <- Hs.
  now apply combined_hourly_hour.
Qed.


(** C9.  A query of fewer than 3 characters is answered with an empty
    suggestion list and no call to the geocoder; whatever the query and the
    geocoder do, the endpoint answers with status 200, and with an empty
    list when the geocoder raises. *)
Theorem geocode_endpoint_never_fails (geolocator : Geocoder F) (query : str) :
  (length query < 3 ->
   geocode_address geolocator query = (Http200 [], []))
  /\ (exists suggestions,
        fst (geocode_address geolocator query) = Http200 suggestions)
  /\ (forall message,
      geocode_many geolocator query 5 = GeocoderError message ->
      fst (geocode_address geolocator query) = Http200 []).
Proof.
  unfold geocode_address. repeat split.
  - intros H. pose proof (strip_length query) as Hs.
    destruct (Nat.ltb_spec (length (strip query)) 3); [reflexivity|lia].
  - destruct (length (strip query) <? 3)%nat; [now eexists|].
    destruct (geocode_many geolocator query 5) as [locations| |message];
      now eexists.
  - intros message He. rewrite He.
    now destruct (length (strip query) <? 3)%nat.
Qed.

(** C10.  Once the address is resolved, the answer has exactly 168 hourly
    values and 7 daily totals, whatever the systems and the weather client
    do; and a system whose energy series has more than 168 points
    contributes its first 168 only. *)
Theorem forecast_has_168_hours_and_7_days (geolocator : Geocoder F)
    (weather : WeatherClient F) (request : ForecastRequest F)
    (location : Location F) :
  geocode geolocator (address request) = Found location ->
  (exists body,
     get_pv_forecast geolocator weather request = Http200 body
     /\ length (hourly_forecast_kwh body) = 168
     /\ length (daily_totals_kwh body) = 7)
  /\ (forall k system irradiance ambient_temp hourly_kwh,
        weather k {| wp_latitude := loc_latitude location;
                     wp_longitude := loc_longitude location;
                     wp_tilt := inclination system;
                     wp_azimuth := azimuth system |}
        = Ok (irradiance, ambient_temp) ->
        calculate_advanced_pv_energy irradiance ambient_temp system
        = Ok hourly_kwh ->
        168 <= length hourly_kwh ->
        process_system weather k (loc_latitude location)
          (loc_longitude location) system
        = Ok (firstn 168 hourly_kwh)).
Proof.
  intros Hgeo. split.
  - rewrite (get_pv_forecast_found _ weather _ Hgeo). cbv zeta.
    eexists. split; [reflexivity|]. cbn [hourly_forecast_kwh daily_totals_kwh].
    split; [|apply daily_totals_length].
    rewrite length_map. apply combined_hourly_length.
  - intros k system irradiance ambient_temp hourly_kwh Hw Hc Hlen.
    unfold process_system. rewrite Hw. cbn [bind]. rewrite Hc. cbn [bind].
    f_equal. now apply reindex_long.
Qed.

End Properties.

(** ** Properties stated arithmetic by arithmetic *)

Local Open Scope num_scope.


(** C3.  With 168 hours of 1000 W/m2 at 25 degrees and the system
    [power = 5, module_efficiency = 0.20, temperature_coefficient = 0,
    noct = 45, system_losses = 0], every hour yields 5 kWh: exactly 5.0 in
    binary64, and exactly 5 in exact arithmetic. *)
Theorem stc_full_sun_yields_5_kwh (tilt facing : float) (tilt' facing' : Q) :
  calculate_advanced_pv_energy (repeat (lit 1000) 168) (repeat (lit 25) 168)
    (stc_system tilt facing)
  = Ok (repeat (lit 5) 168)
  /\ calculate_advanced_pv_energy (repeat (lit 1000) 168) (repeat (lit 25) 168)
       (stc_system tilt' facing')
     = Ok (repeat (lit 5) 168).
Proof.
  split; vm_compute; reflexivity.
Qed.


(** ** Sample runs *)

Lemma energy_model_matches_formula_sample :
  exists energy_kwh,
    calculate_advanced_pv_energy (F := float)
      [lit 1000; lit 500] [lit 25; lit 20] sample_system = Ok energy_kwh
    /\ length energy_kwh = 2%nat
    /\ forall i I T,
         nth_error [lit 1000; lit 500] i = Some I ->
         nth_error [lit 25; lit 20] i = Some T ->
         nth_error energy_kwh i
         = Some (I * spec_Area sample_system
                 * spec_eta_eff sample_system (spec_T_cell sample_system I T)
                 * (lit 1 - system_losses sample_system) / lit 1000).
Proof.
  apply (@energy_model_matches_formula float _
           [lit 1000; lit 500] [lit 25; lit 20] sample_system);
    vm_compute; reflexivity.
Defined.



(** C4, the claim as stated fails: a series of length 1 and a series of
    length 3 give a series of length 3, not an error. *)
Lemma length_one_series_is_broadcast :
  length [lit (F := Q) 1000] = 1%nat
  /\ length [lit (F := Q) 25; lit 25; lit 10] = 3%nat
  /\ calculate_advanced_pv_energy
       [lit 1000] [lit 25; lit 25; lit 10] sample_system
     = Ok [2451 # 640; 2451 # 640; 64887 # 16000]%Q.
Proof.
  repeat split.
Qed.

Lemma length_mismatch_raises_sample :
  (length [lit (F := float) 1000; lit 500] <> 1%nat ->
   length [lit (F := float) 25; lit 20; lit 15] <> 1%nat ->
   calculate_advanced_pv_energy
     [lit 1000; lit 500] [lit 25; lit 20; lit 15] sample_system
   = Raise ValueError)
  /\ (forall I, [lit (F := float) 1000; lit 500] = [I] ->
      num_is_zero (module_efficiency (F := float) sample_system * lit 1000)
      = false ->
      calculate_advanced_pv_energy
        [lit 1000; lit 500] [lit 25; lit 20; lit 15] sample_system
      = Ok (map (fun T => spec_E_hour sample_system I T)
              [lit 25; lit 20; lit 15]))
  /\ (forall T, [lit (F := float) 25; lit 20; lit 15] = [T] ->
      num_is_zero (module_efficiency (F := float) sample_system * lit 1000)
      = false ->
      calculate_advanced_pv_energy
        [lit 1000; lit 500] [lit 25; lit 20; lit 15] sample_system
      = Ok (map (fun I => spec_E_hour sample_system I T) [lit 1000; lit 500])).
Proof.
  apply (@length_mismatch_raises_unless_broadcast float _
           [lit 1000; lit 500] [lit 25; lit 20; lit 15] sample_system).
  cbn [length]. lia.
Defined.

(** C5, the claim as stated fails: a request without any PV system passes
    validation. *)
Lemma request_without_systems_is_accepted :
  length (pv_systems (F := Q) empty_request) = 0%nat
  /\ ForecastRequest_validate (F := Q) empty_request = true
  /\ ForecastRequest_validate (F := float) empty_request = true.
Proof.
  repeat split.
Qed.

Lemma failed_system_is_skipped_sample :
  exists body,
    get_pv_forecast (F := Q) sample_geolocator sample_weather sample_request
    = Http200 body
    /\ (forall h,
          (h < 168)%nat ->
          nth_error (hourly_forecast_kwh body) h
          = Some (num_rint
                    (fold_left num_add
                       (map (fun series_kwh => nth h series_kwh (lit 0))
                          (processed_series (skip_call 1 sample_weather)
                             (loc_latitude sample_location)
                             (loc_longitude sample_location) 0
                             (remove_nth 1 (pv_systems sample_request))))
                       (lit 0)
                     * lit 100)
                  / lit 100))
    /\ processed_series (F := Q) sample_weather
         (loc_latitude sample_location) (loc_longitude sample_location) 0
         (pv_systems sample_request)
       = processed_series (skip_call 1 sample_weather)
           (loc_latitude sample_location) (loc_longitude sample_location) 0
           (remove_nth 1 (pv_systems sample_request))
    /\ get_pv_forecast (F := Q) sample_geolocator sample_weather
         sample_request
       = get_pv_forecast sample_geolocator (skip_call 1 sample_weather)
           {| address := address sample_request;
              pv_systems := remove_nth 1 (pv_systems sample_request) |}.
Proof.
  exact (@failed_system_is_skipped Q _ sample_geolocator sample_weather
           sample_request sample_location 1 sample_system CollaboratorError
           eq_refl eq_refl (or_introl eq_refl)).
Defined.




Lemma forecast_has_168_hours_and_7_days_sample :
  (exists body,
     get_pv_forecast (F := float) sample_geolocator sample_weather
       sample_request = Http200 body
     /\ length (hourly_forecast_kwh body) = 168%nat
     /\ length (daily_totals_kwh body) = 7%nat)
  /\ (forall k system irradiance ambient_temp hourly_kwh,
        sample_weather (F := float) k
          {| wp_latitude := loc_latitude sample_location;
             wp_longitude := loc_longitude sample_location;
             wp_tilt := inclination system;
             wp_azimuth := azimuth system |}
        = Ok (irradiance, ambient_temp) ->
        calculate_advanced_pv_energy irradiance ambient_temp system
        = Ok hourly_kwh ->
        (168 <= length hourly_kwh)%nat ->
        process_system sample_weather k (loc_latitude sample_location)
          (loc_longitude sample_location) system
        = Ok (firstn 168 hourly_kwh)).
Proof.
  apply (@forecast_has_168_hours_and_7_days float _ sample_geolocator
           sample_weather sample_request sample_location).
  reflexivity.
Defined.

(** * Further properties of the program *)

Local Open Scope nat_scope.

(** ** Strings *)

Lemma lstrip_spaces_app (ws s : str) :
  forallb is_space ws = true -> lstrip (ws ++ s) = lstrip s.
Proof.
  induction ws as [|c ws IH]; cbn [forallb app lstrip]; [reflexivity|].
  intros H. apply andb_prop in H as [Hc Hws]. now rewrite Hc, IH.
Qed.

Lemma rstrip_app_spaces (s ws : str) :
  forallb is_space ws = true -> length (rstrip (s ++ ws)) <= length s.
Proof.
  intros H. unfold rstrip. rewrite length_rev, rev_app_distr.
  rewrite lstrip_spaces_app
    by (rewrite forallb_forall in *; intros c Hc; apply H;
        now apply in_rev).
  etransitivity; [apply lstrip_length|]. now rewrite length_rev.
Qed.

Lemma lstrip_app_spaces (s ws : str) :
  forallb is_space ws = true ->
  exists y ws',
    lstrip (s ++ ws) = y ++ ws'
    /\ length y <= length s /\ forallb is_space ws' = true.
Proof.
  intros H. induction s as [|c s IH]; cbn [app lstrip].
  - exists [], []. rewrite <- (app_nil_r ws), lstrip_spaces_app by exact H.
    now repeat split.
  - destruct (is_space c).
    + destruct IH as (y & ws' & E & Hy & Hws').
      exists y, ws'. repeat split; auto. cbn [length]. lia.
    + exists (c :: s), ws. now repeat split.
Qed.

Lemma strip_padded_length (ws1 core ws2 : str) :
  forallb is_space ws1 = true -> forallb is_space ws2 = true ->
  length (strip (ws1 ++ core ++ ws2)) <= length core.
Proof.
  intros H1 H2. unfold strip. rewrite lstrip_spaces_app by exact H1.
  destruct (lstrip_app_spaces core ws2 H2) as (y & ws' & -> & Hy & Hws').
  etransitivity; [now apply rstrip_app_spaces|exact Hy].
Qed.

Section MoreStructure.

Context {F : Type} {NF : Number F}.
Local Open Scope num_scope.

(** ** The energy model: when it returns *)

(** The two outcomes of the energy model for a system whose efficiency is
    not zero. *)
Lemma calculate_outcome (irradiance ambient_temp : list F)
    (system : PVSystem F) :
  num_is_zero (module_efficiency system * lit 1000) = false ->
  ((length irradiance = length ambient_temp
    \/ length irradiance = 1%nat \/ length ambient_temp = 1%nat)
   /\ exists energy_kwh,
        calculate_advanced_pv_energy irradiance ambient_temp system
        = Ok energy_kwh
        /\ length energy_kwh
           = if (length irradiance =? 1)%nat then length ambient_temp
             else length irradiance)
  \/ (~ (length irradiance = length ambient_temp
         \/ length irradiance = 1%nat \/ length ambient_temp = 1%nat)
      /\ calculate_advanced_pv_energy irradiance ambient_temp system
         = Raise ValueError).
Proof.
  intros Hz.
  destruct (Nat.eq_dec (length irradiance) (length ambient_temp)) as [Heq|Hne].
  - left. split; [auto|]. eexists. split; [now apply calculate_same_length|].
    rewrite zip_with_length, <- Heq, Nat.min_id.
    destruct (Nat.eqb_spec (length irradiance) 1); congruence.
  - destruct (Nat.eq_dec (length irradiance) 1) as [Hi|Hi].
    + left. split; [auto|].
      destruct irradiance as [|I [|I' irr]]; try discriminate Hi.
      assert (Ha : length ambient_temp <> 1%nat) by (cbn in Hne; congruence).
      eexists. split; [now apply calculate_broadcast_irradiance|].
      now rewrite length_map.
    + destruct (Nat.eq_dec (length ambient_temp) 1) as [Ha|Ha].
      * left. split; [auto|].
        destruct ambient_temp as [|T [|T' amb]]; try discriminate Ha.
        eexists. split; [now apply calculate_broadcast_temperature|].
        rewrite length_map.
        now destruct (Nat.eqb_spec (length irradiance) 1).
      * right. split; [|now apply calculate_mismatch].
        intros [H|[H|H]]; contradiction.
Qed.

(** X1.  For a system whose efficiency is not zero, the energy model
    returns a series exactly when the two input shapes broadcast (equal
    lengths, or one of them 1); the series is then as long as
    [ambient_temp] when [irradiance] has length 1 and as long as
    [irradiance] otherwise; and the only exception it raises is numpy's
    [ValueError]. *)
Theorem energy_model_returns_iff_shapes_broadcast
    (irradiance ambient_temp : list F) (system : PVSystem F) :
  num_is_zero (module_efficiency system * lit 1000) = false ->
  ((exists energy_kwh,
      calculate_advanced_pv_energy irradiance ambient_temp system
      = Ok energy_kwh)
   <-> (length irradiance = length ambient_temp
        \/ length irradiance = 1%nat \/ length ambient_temp = 1%nat))
  /\ (forall energy_kwh,
        calculate_advanced_pv_energy irradiance ambient_temp system
        = Ok energy_kwh ->
        length energy_kwh
        = if (length irradiance =? 1)%nat then length ambient_temp
          else length irradiance)
  /\ (forall e,
        calculate_advanced_pv_energy irradiance ambient_temp system = Raise e ->
        e = ValueError).
Proof.
  intros Hz.
  destruct (calculate_outcome irradiance ambient_temp system Hz)
    as [(Hshape & out & Hc & Hlen)|(Hshape & Hc)]; rewrite Hc.
  - repeat split.
    + auto.
    + intros _. now exists out.
    + now intros energy_kwh [= <-].
    + discriminate.
  - repeat split.
    + intros [out H]. discriminate.
    + intros H. contradiction.
    + discriminate.
    + congruence.
Qed.

(** X15.  In the loop of a forecast, a system whose efficiency is not zero
    is skipped only for one of two reasons: the weather client raised, or
    the two arrays it returned have shapes that do not broadcast (numpy's
    [ValueError]).  When the weather client answers with two arrays of equal
    length the system is never skipped. *)
Theorem system_is_skipped_only_for_weather_or_shape
    (weather : WeatherClient F) (k : nat) (lat lon : F)
    (system : PVSystem F) :
  num_is_zero (module_efficiency system * lit 1000) = false ->
  (forall e,
     process_system weather k lat lon system = Raise e ->
     weather k {| wp_latitude := lat; wp_longitude := lon;
                  wp_tilt := inclination system;
                  wp_azimuth := azimuth system |} = Raise e
     \/ (e = ValueError
         /\ exists irradiance ambient_temp,
              weather k {| wp_latitude := lat; wp_longitude := lon;
                           wp_tilt := inclination system;
                           wp_azimuth := azimuth system |}
              = Ok (irradiance, ambient_temp)
              /\ length irradiance <> length ambient_temp
              /\ length irradiance <> 1%nat
              /\ length ambient_temp <> 1%nat))
  /\ (forall irradiance ambient_temp,
        weather k {| wp_latitude := lat; wp_longitude := lon;
                     wp_tilt := inclination system;
                     wp_azimuth := azimuth system |}
        = Ok (irradiance, ambient_temp) ->
        length irradiance = length ambient_temp ->
        exists series_kwh,
          process_system weather k lat lon system = Ok series_kwh).
Proof.
  intros Hz. unfold process_system. split.
  - intros e.
    destruct (weather k _) as [[irradiance ambient_temp]|e'];
      cbn [bind]; [|intros [= <-]; now left].
    destruct (calculate_outcome irradiance ambient_temp system Hz)
      as [(Hshape & out & Hc & Hlen)|(Hshape & Hc)]; rewrite Hc; cbn [bind];
      [discriminate|].
    intros [= <-]. right. split; [reflexivity|].
    exists irradiance, ambient_temp. split; [reflexivity|].
    repeat split; intros H; apply Hshape; auto.
  - intros irradiance ambient_temp -> Hlen. cbn [bind].
    rewrite calculate_same_length by assumption. cbn [bind].
    eexists; reflexivity.
Qed.

End MoreStructure.

Section MoreAggregator.

Context {F : Type} {NF : Number F}.

(** ** The day windows *)

Lemma firstn_add_skipn {A : Type} (w n : nat) (l : list A) :
  firstn (w + n) l = firstn w l ++ firstn n (skipn w l).
Proof.
  revert l. induction w as [|w IH]; intros l; [reflexivity|].
  destruct l as [|x l]; cbn [Nat.add firstn skipn app].
  - now rewrite firstn_nil.
  - now rewrite IH.
Qed.

Lemma skipn_add {A : Type} (a w : nat) (l : list A) :
  skipn (a + w) l = skipn w (skipn a l).
Proof.
  revert l. induction a as [|a IH]; intros l; [reflexivity|].
  destruct l as [|x l]; cbn [Nat.add skipn]; [now rewrite skipn_nil|].
  apply IH.
Qed.

Lemma windows_concat (w : nat) (l : list F) :
  forall m k,
  concat (map (fun d => slice l (d * w) (d * w + w)) (seq k m))
  = firstn (m * w) (skipn (k * w) l).
Proof.
  induction m as [|m IH]; intros k; [reflexivity|].
  cbn [seq map concat]. rewrite IH. unfold slice.
  replace (k * w + w - k * w) with w by lia.
  replace (S k * w) with (k * w + w) by lia.
  rewrite skipn_add. cbn [Nat.mul].
  now rewrite firstn_add_skipn.
Qed.

End MoreAggregator.

Section MoreEndpoints.

Context {F : Type} {NF : Number F}.

(** X2.  The daily totals are taken over seven windows of 24 hours that
    follow one another and together are the whole combined series: no hour
    is counted twice and none is left out. *)
Theorem day_windows_partition_the_series (weather : WeatherClient F)
    (location : Location F) (request : ForecastRequest F) :
  let hourly_kwh := combined_hourly_kwh weather location request in
  let windows :=
    map (fun day => slice hourly_kwh (day * 24) (day * 24 + 24)) (seq 0 7) in
  daily_totals hourly_kwh = map (fun w => round2 (series_sum w)) windows
  /\ concat windows = hourly_kwh
  /\ Forall (fun w => length w = 24) windows.
Proof.
  intros hourly_kwh windows.
  pose proof (combined_hourly_length weather location request) as Hlen.
  fold hourly_kwh in Hlen.
  split; [unfold daily_totals, windows; now rewrite map_map|].
  split.
  - unfold windows. rewrite windows_concat. cbn [Nat.mul skipn].
    apply firstn_all2. rewrite Hlen. cbn. lia.
  - unfold windows. apply Forall_forall. intros w Hw.
    apply in_map_iff in Hw as (day & <- & Hday).
    apply in_seq in Hday. unfold slice.
    rewrite length_firstn, length_skipn, Hlen. lia.
Qed.

(** X5.  White space around a query does not count: a query whose text
    between leading and trailing white space has fewer than 3 characters is
    answered with an empty suggestion list, and the geocoder is not
    called. *)
Theorem padded_short_query_skips_geocoder (geolocator : Geocoder F)
    (ws1 core ws2 : str) :
  forallb is_space ws1 = true -> forallb is_space ws2 = true ->
  length core < 3 ->
  geocode_address geolocator (ws1 ++ core ++ ws2) = (Http200 [], []).
Proof.
  intros H1 H2 Hcore. unfold geocode_address.
  pose proof (strip_padded_length ws1 core ws2 H1 H2) as Hs.
  destruct (Nat.ltb_spec (length (strip (ws1 ++ core ++ ws2))) 3);
    [reflexivity|lia].
Qed.

(** X6.  A query with at least 3 characters after stripping costs exactly
    one geocoder call, made with the query as received (not stripped) and
    limit 5.  When the geocoder finds locations, the answer lists one
    suggestion per location, in the geocoder's order and without cutting
    the list, each with the address, latitude and longitude of its
    location; when it finds nothing, the list is empty. *)
Theorem geocode_suggestions_mirror_locations (geolocator : Geocoder F)
    (query : str) :
  3 <= length (strip query) ->
  snd (geocode_address geolocator query) = [query]
  /\ (forall locations,
      geocode_many geolocator query 5 = Found locations ->
      exists suggestions,
        fst (geocode_address geolocator query) = Http200 suggestions
        /\ length suggestions = length locations
        /\ forall i location,
             nth_error locations i = Some location ->
             exists suggestion,
               nth_error suggestions i = Some suggestion
               /\ sug_address suggestion = loc_address location
               /\ sug_latitude suggestion = loc_latitude location
               /\ sug_longitude suggestion = loc_longitude location)
  /\ (geocode_many geolocator query 5 = NotFound ->
      fst (geocode_address geolocator query) = Http200 []).
Proof.
  intros Hlen. unfold geocode_address.
  destruct (Nat.ltb_spec (length (strip query)) 3) as [Hlt|_]; [lia|].
  repeat split.
  - now destruct (geocode_many geolocator query 5).
  - intros locations ->. cbn [fst]. eexists. split; [reflexivity|].
    split; [apply length_map|].
    intros i location Hi. eexists. split.
    + rewrite nth_error_map, Hi. reflexivity.
    + now repeat split.
  - now intros ->.
Qed.

End MoreEndpoints.

(** ** The aggregator in exact arithmetic *)

Section MoreExactAggregator.

Local Open Scope num_scope.

Lemma series_add_nth (a b : list Q) (i : nat) :
  (i < length a)%nat -> (i < length b)%nat ->
  (nth i (series_add a b) 0 == nth i a 0 + nth i b 0)%Q.
Proof.
  intros Ha Hb.
  destruct (nth_error a i) as [x|] eqn:Hx;
    [|apply nth_error_None in Hx; lia].
  destruct (nth_error b i) as [y|] eqn:Hy;
    [|apply nth_error_None in Hy; lia].
  unfold series_add.
  rewrite (nth_error_nth _ _ _ (zip_with_nth_error num_add _ _ _ Hx Hy)).
  rewrite (nth_error_nth _ _ _ Hx), (nth_error_nth _ _ _ Hy).
  cbn [num_add Q_Number]. apply Qred_correct.
Qed.

Lemma fold_series_add_nth (ss : list (list Q)) (i : nat) :
  (i < 168)%nat -> Forall (fun s => length s = 168%nat) ss ->
  forall total, length total = 168%nat ->
  (nth i (fold_left series_add ss total) 0
   == nth i total 0 + Qsum (map (fun s => nth i s 0%Q) ss))%Q.
Proof.
  intros Hi Hss. induction Hss as [|s ss Hs Hss IH]; intros total Ht.
  - cbn. ring.
  - cbn [fold_left map].
    rewrite IH by now apply series_add_length.
    rewrite series_add_nth by lia.
    change (Qsum (nth i s 0%Q :: map (fun s => nth i s 0%Q) ss))
      with (nth i s 0 + Qsum (map (fun s => nth i s 0%Q) ss))%Q.
    ring.
Qed.

(** X10.  In exact arithmetic every hour of the combined series is the sum,
    over the systems that did not fail, of that hour of the system's
    168-point series: failed systems add nothing and the start value adds
    nothing. *)
Theorem combined_series_is_the_sum_over_systems (weather : WeatherClient Q)
    (location : Location Q) (request : ForecastRequest Q) (i : nat) :
  (i < 168)%nat ->
  (nth i (combined_hourly_kwh weather location request) 0
   == Qsum (map (fun series_kwh => nth i series_kwh 0%Q)
              (processed_series weather (loc_latitude location)
                 (loc_longitude location) 0 (pv_systems request))))%Q.
Proof.
  intros Hi. unfold combined_hourly_kwh.
  rewrite forecast_loop_fold.
  rewrite fold_series_add_nth;
    [|exact Hi|apply processed_series_lengths|apply repeat_length].
  cbn [num_lit Q_Number].
  rewrite nth_repeat. change (Qred 0) with 0%Q. ring.
Qed.

(** X12.  In exact arithmetic, when the address is resolved and every
    system of the request fails (or the request has no system at all), the
    answer is still a 200, with 168 hourly values, 7 daily totals and a
    total that are all zero. *)
Theorem forecast_without_surviving_system_is_zero (geolocator : Geocoder Q)
    (weather : WeatherClient Q) (request : ForecastRequest Q)
    (location : Location Q) :
  geocode geolocator (address request) = Found location ->
  (forall i system,
     nth_error (pv_systems request) i = Some system ->
     exists e, process_system weather i (loc_latitude location)
                 (loc_longitude location) system = Raise e) ->
  get_pv_forecast geolocator weather request
  = Http200 {| latitude := loc_latitude location;
               longitude := loc_longitude location;
               hourly_forecast_kwh := repeat 0%Q 168;
               daily_totals_kwh := repeat 0%Q 7;
               total_daily_kwh := 0%Q |}.
Proof.
  intros Hgeo Hfail.
  rewrite (get_pv_forecast_found _ weather _ Hgeo). cbv zeta.
  assert (Hc : combined_hourly_kwh weather location request
               = repeat (lit 0) 168).
  { unfold combined_hourly_kwh. rewrite forecast_loop_fold.
    now rewrite processed_series_all_fail. }
  rewrite Hc. reflexivity.
Qed.

End MoreExactAggregator.

(** ** Sample runs of the further properties *)

Local Open Scope num_scope.

Lemma energy_model_returns_iff_shapes_broadcast_sample :
  ((exists energy_kwh,
      calculate_advanced_pv_energy (F := float)
        [lit 1000] [lit 25; lit 20; lit 15] sample_system = Ok energy_kwh)
   <-> (length [lit (F := float) 1000] = length [lit (F := float) 25; lit 20; lit 15]
        \/ length [lit (F := float) 1000] = 1%nat
        \/ length [lit (F := float) 25; lit 20; lit 15] = 1%nat))
  /\ (forall energy_kwh,
        calculate_advanced_pv_energy (F := float)
          [lit 1000] [lit 25; lit 20; lit 15] sample_system = Ok energy_kwh ->
        length energy_kwh = 3%nat)
  /\ (forall e,
        calculate_advanced_pv_energy (F := float)
          [lit 1000] [lit 25; lit 20; lit 15] sample_system = Raise e ->
        e = ValueError).
Proof.
  apply (@energy_model_returns_iff_shapes_broadcast float _
           [lit 1000] [lit 25; lit 20; lit 15] sample_system).
  vm_compute. reflexivity.
Defined.

Lemma padded_short_query_skips_geocoder_sample :
  geocode_address (F := Q) sample_geolocator
    (str_of "  " ++ str_of "ab" ++ str_of " ")
  = (Http200 [], []).
Proof.
  apply (@padded_short_query_skips_geocoder Q (@sample_geolocator Q Q_Number)
           (str_of "  ") (str_of "ab") (str_of " "));
    [reflexivity|reflexivity|cbn; lia].
Defined.

Lemma geocode_suggestions_mirror_locations_sample :
  snd (geocode_address (F := Q) sample_geolocator (str_of " Berlin "))
  = [str_of " Berlin "]
  /\ (forall locations,
      geocode_many (F := Q) sample_geolocator (str_of " Berlin ") 5
      = Found locations ->
      exists suggestions,
        fst (geocode_address (F := Q) sample_geolocator (str_of " Berlin "))
        = Http200 suggestions
        /\ length suggestions = length locations
        /\ forall i location,
             nth_error locations i = Some location ->
             exists suggestion,
               nth_error suggestions i = Some suggestion
               /\ sug_address suggestion = loc_address location
               /\ sug_latitude suggestion = loc_latitude location
               /\ sug_longitude suggestion = loc_longitude location)
  /\ (geocode_many (F := Q) sample_geolocator (str_of " Berlin ") 5 = NotFound ->
      fst (geocode_address (F := Q) sample_geolocator (str_of " Berlin ")) = Http200 []).
Proof.
  apply (@geocode_suggestions_mirror_locations Q (@sample_geolocator Q Q_Number)
           (str_of " Berlin ")).
  vm_compute. lia.
Defined.

Lemma combined_series_is_the_sum_over_systems_sample :
  (nth 0 (combined_hourly_kwh (F := Q) sample_weather sample_location
            sample_request) 0
   == Qsum (map (fun series_kwh => nth 0 series_kwh 0%Q)
              (processed_series sample_weather
                 (loc_latitude sample_location)
                 (loc_longitude sample_location) 0
                 (pv_systems sample_request))))%Q.
Proof.
  apply (@combined_series_is_the_sum_over_systems sample_weather
           sample_location sample_request 0).
  lia.
Defined.

Lemma forecast_without_surviving_system_is_zero_sample :
  get_pv_forecast (F := Q) sample_geolocator
    (fun _ _ => Raise CollaboratorError) sample_request
  = Http200 {| latitude := loc_latitude sample_location;
               longitude := loc_longitude sample_location;
               hourly_forecast_kwh := repeat 0%Q 168;
               daily_totals_kwh := repeat 0%Q 7;
               total_daily_kwh := 0%Q |}.
Proof.
  apply (@forecast_without_surviving_system_is_zero sample_geolocator
           (fun _ _ => Raise CollaboratorError) sample_request
           sample_location);
    [reflexivity|].
  intros i system _. eexists. reflexivity.
Defined.

Lemma system_is_skipped_only_for_weather_or_shape_sample :
  (forall e,
     process_system (F := float) sample_weather 1 (lit 52.52) (lit 13.405)
       sample_system = Raise e ->
     sample_weather 1 {| wp_latitude := lit 52.52; wp_longitude := lit 13.405;
                         wp_tilt := inclination sample_system;
                         wp_azimuth := azimuth sample_system |} = Raise e
     \/ (e = ValueError
         /\ exists irradiance ambient_temp,
              sample_weather 1
                {| wp_latitude := lit 52.52; wp_longitude := lit 13.405;
                   wp_tilt := inclination sample_system;
                   wp_azimuth := azimuth sample_system |}
              = Ok (irradiance, ambient_temp)
              /\ length irradiance <> length ambient_temp
              /\ length irradiance <> 1%nat
              /\ length ambient_temp <> 1%nat))
  /\ (forall irradiance ambient_temp,
        sample_weather 1
          {| wp_latitude := lit 52.52; wp_longitude := lit 13.405;
             wp_tilt := inclination sample_system;
             wp_azimuth := azimuth sample_system |}
        = Ok (irradiance, ambient_temp) ->
        length irradiance = length ambient_temp ->
        exists series_kwh,
          process_system (F := float) sample_weather 1 (lit 52.52)
            (lit 13.405) sample_system = Ok series_kwh).
Proof.
  apply (@system_is_skipped_only_for_weather_or_shape float _ sample_weather 1
           (lit 52.52) (lit 13.405) sample_system).
  vm_compute. reflexivity.
Defined.
